(** * blink: command-line encoder for the blink(1) USB notification light

    A shallow embedding of [src/blink.c]: the colour registry and
    [parse_color], [parse_duration] with single-precision arithmetic,
    the command table, the GNU [getopt] option scan and [main], which
    fills the 9-byte hidraw report and writes it to standard output.

    C integers are [Z]; an [int] that the code narrows to [char] is
    stored as the byte it becomes ([Z.modulo _ 256]).  Library calls
    ([strtoul], [strtof], [atoi], [getopt]) are modelled after the C
    standard and glibc. *)

From Stdlib Require Import ZArith List String Ascii Bool Lia.
From Stdlib Require Import Floats.SpecFloat DecimalString.
Import ListNotations.
Open Scope string_scope.
Open Scope Z_scope.

(** ** Characters (C locale <ctype.h>) *)

Definition code (c : ascii) : Z := Z.of_N (N_of_ascii c).

Definition isspace (c : ascii) : bool :=
  let n := code c in (n =? 32) || ((9 <=? n) && (n <=? 13)).

Definition isdigit (c : ascii) : bool :=
  let n := code c in (48 <=? n) && (n <=? 57).

(** Value of [c] as a digit in base 16 ([None] if it is not one). *)
Definition hexval (c : ascii) : option Z :=
  let n := code c in
  if (48 <=? n) && (n <=? 57) then Some (n - 48)
  else if (97 <=? n) && (n <=? 102) then Some (n - 87)
  else if (65 <=? n) && (n <=? 70) then Some (n - 55)
  else None.

Definition isxdigit (c : ascii) : bool :=
  match hexval c with Some _ => true | None => false end.

Definition tolower (c : ascii) : ascii :=
  let n := code c in
  if (65 <=? n) && (n <=? 90) then ascii_of_N (Z.to_N (n + 32)) else c.

(** [strcmp a b == 0] *)
Definition streq (a b : string) : bool := String.eqb a b.

(** Whether every character of [s] satisfies [p]. *)
Fixpoint all (p : ascii -> bool) (s : string) : bool :=
  match s with
  | String c r => p c && all p r
  | EmptyString => true
  end.

Fixpoint skip_space (s : string) : string :=
  match s with
  | String c r => if isspace c then skip_space r else s
  | EmptyString => s
  end.

(** Longest prefix of digits accepted by [ok]: the digits and the rest. *)
Fixpoint span (ok : ascii -> bool) (s : string) : string * string :=
  match s with
  | String c r =>
      if ok c then let '(d, t) := span ok r in (String c d, t) else ("", s)
  | EmptyString => ("", "")
  end.

Fixpoint digits_value (base : Z) (acc : Z) (s : string) : Z :=
  match s with
  | String c r =>
      digits_value base (acc * base +
        match hexval c with Some v => v | None => 0 end) r
  | EmptyString => acc
  end.

(** ** strtoul (glibc, [unsigned long] is 64 bits) *)

Definition ULONG_MAX : Z := 2 ^ 64 - 1.

(** Optional sign: whether it is '-', and the rest. *)
Definition take_sign (s : string) : bool * string :=
  match s with
  | String c r =>
      if Ascii.eqb c "-" then (true, r)
      else if Ascii.eqb c "+" then (false, r)
      else (false, s)
  | EmptyString => (false, s)
  end.

(** "0x" or "0X" at the head of [s]: the string after it. *)
Definition hex_prefix (s : string) : option string :=
  match s with
  | String z (String x r) =>
      if Ascii.eqb z "0" && Ascii.eqb (tolower x) "x" then Some r else None
  | _ => None
  end.

(** [strtoul(nptr, &end, 16)]: the value and the string at [end].
    After blanks and a sign, a "0x"/"0X" is skipped; if no hex digit
    follows it, the "0" alone is the number and [end] points at the
    'x'.  With no digit at all, the value is 0 and [end] is [nptr].
    An out-of-range magnitude gives ULONG_MAX; a '-' negates modulo
    2^64. *)
Definition strtoul16 (nptr : string) : Z * string :=
  let '(neg, s) := take_sign (skip_space nptr) in
  let s' := match hex_prefix s with Some r => r | None => s end in
  let '(ds, rest) := span isxdigit s' in
  match ds with
  | EmptyString =>
      match hex_prefix s, s with
      | Some _, String _ x_r => (0, x_r)
      | _, _ => (0, nptr)
      end
  | _ =>
      let v := digits_value 16 0 ds in
      if ULONG_MAX <? v then (ULONG_MAX, rest)
      else ((if neg then - v else v) mod 2 ^ 64, rest)
  end.

(** ** The colour registry ([colors[]]) *)

Definition colors : list (string * Z) :=
  [ ("blue",   255);        (* 0x0000FF *)
    ("cyan",   65535);      (* 0x00FFFF *)
    ("green",  65280);      (* 0x00FF00 *)
    ("purple", 16711935);   (* 0xFF00FF *)
    ("red",    16711680);   (* 0xFF0000 *)
    ("white",  16777215);   (* 0xFFFFFF *)
    ("yellow", 16776960) ]. (* 0xFFFF00 *)

(** The linear search of [parse_color] over the registry. *)
Fixpoint find_color (l : list (string * Z)) (color : string) : option Z :=
  match l with
  | (name, value) :: l' => if streq name color then Some value else find_color l' color
  | [] => None
  end.

(** [parse_color]: a defined colour, or a hexadecimal value fully
    consumed by [strtoul] and at most 0xFFFFFF; [-1] otherwise. *)
Definition parse_color (color : string) : Z :=
  match find_color colors color with
  | Some v => v
  | None =>
      let '(value, end_) := strtoul16 color in
      if 16777215 <? value then -1
      else if negb (streq color "") && streq end_ "" then value
      else -1
  end.

(** R, G and B macros. *)
Definition R (rgb : Z) : Z := Z.shiftr (Z.land rgb 16711680) 16.
Definition G (rgb : Z) : Z := Z.shiftr (Z.land rgb 65280) 8.
Definition B (rgb : Z) : Z := Z.shiftr (Z.land rgb 255) 0.

(** ** Single-precision floats

    [float] is IEEE-754 binary32: 24 bits of precision, infinities at
    exponent 128, rounding to nearest even. *)

Definition prec32 : Z := 24.
Definition emax32 : Z := 128.

Definition float := spec_float.

Definition float_of_int (n : Z) : float := binary_normalize prec32 emax32 n 0 false.
Definition fmul (x y : float) : float := SFmul prec32 emax32 x y.
Definition fdiv (x y : float) : float := SFdiv prec32 emax32 x y.
Definition flt (x y : float) : bool := SFltb x y.

(** Conversion of a [float] to [int] (truncation toward zero); [None]
    when the integral part is not an [int] or the float is infinite or
    NaN, which C leaves undefined. *)
Definition int_of_float (f : float) : option Z :=
  match f with
  | S754_zero _ => Some 0
  | S754_finite s m e =>
      let t := if 0 <=? e then Z.pos m * 2 ^ e else Z.shiftr (Z.pos m) (- e) in
      let v := if s then - t else t in
      if (- 2 ^ 31 <=? v) && (v <=? 2 ^ 31 - 1) then Some v else None
  | _ => None
  end.

(** ** strtof

    The subject sequence is the longest prefix, after blanks, of one of
    the forms of C11 7.22.1.3: a decimal floating constant (digits with
    an optional point, at least one digit, an optional exponent), a
    hexadecimal one ("0x", hex digits with an optional point, at least
    one digit, an optional binary exponent "p"), INF or INFINITY, NAN
    or NAN(n-char-sequence), case-insensitive.  The value is the
    subject sequence rounded to the nearest float (glibc rounds
    correctly). *)

Inductive numeral :=
| NDec (neg : bool) (m : Z) (e : Z)   (* m * 10 ^ e *)
| NHex (neg : bool) (m : Z) (e : Z)   (* m * 2 ^ e *)
| NInf (neg : bool)
| NNaN.

(** An optional exponent: "e"/"p", an optional sign, decimal digits. *)
Definition exponent (mark : ascii) (s : string) : Z * string :=
  match s with
  | String c r =>
      if Ascii.eqb (tolower c) mark then
        let '(neg, r') := take_sign r in
        match span isdigit r' with
        | (EmptyString, _) => (0, s)
        | (ds, t) => (let v := digits_value 10 0 ds in if neg then - v else v, t)
        end
      else (0, s)
  | EmptyString => (0, s)
  end.

(** Digits, then an optional point and digits: the digits before and
    after the point, and the rest. *)
Definition mantissa (ok : ascii -> bool) (s : string) : string * string * string :=
  let '(d1, r1) := span ok s in
  match r1 with
  | String "." r2 => let '(d2, r3) := span ok r2 in (d1, d2, r3)
  | _ => (d1, "", r1)
  end.

Definition lex_decimal (neg : bool) (s : string) : option (numeral * string) :=
  let '(d1, d2, r) := mantissa isdigit s in
  if streq (d1 ++ d2) "" then None
  else
    let '(x, r') := exponent "e" r in
    Some (NDec neg (digits_value 10 0 (d1 ++ d2)) (x - Z.of_nat (length d2)), r').

Definition lex_hex (neg : bool) (s : string) : option (numeral * string) :=
  match hex_prefix s with
  | Some s' =>
      let '(d1, d2, r) := mantissa isxdigit s' in
      if streq (d1 ++ d2) "" then None
      else
        let '(p, r') := exponent "p" r in
        Some (NHex neg (digits_value 16 0 (d1 ++ d2)) (p - 4 * Z.of_nat (String.length d2)), r')
  | None => None
  end.

Fixpoint prefix_ci (p s : string) : option string :=
  match p, s with
  | EmptyString, _ => Some s
  | String a p', String b s' => if Ascii.eqb a (tolower b) then prefix_ci p' s' else None
  | _, _ => None
  end.

Definition nchar (c : ascii) : bool :=
  isdigit c || Ascii.eqb c "_" ||
  let n := code (tolower c) in (97 <=? n) && (n <=? 122).

Definition lex_special (neg : bool) (s : string) : option (numeral * string) :=
  match prefix_ci "inf" s with
  | Some r =>
      match prefix_ci "inity" r with
      | Some r' => Some (NInf neg, r')
      | None => Some (NInf neg, r)
      end
  | None =>
      match prefix_ci "nan" s with
      | Some (String "(" r) =>
          match span nchar r with
          | (_, String ")" r') => Some (NNaN, r')
          | _ => Some (NNaN, String "(" r)
          end
      | Some r => Some (NNaN, r)
      | None => None
      end
  end.

Definition lex_float (nptr : string) : option (numeral * string) :=
  let '(neg, s) := take_sign (skip_space nptr) in
  match lex_hex neg s with
  | Some x => Some x
  | None =>
      match lex_decimal neg s with
      | Some x => Some x
      | None => lex_special neg s
      end
  end.

(** Correct rounding of [m * 10 ^ e] and of [m * 2 ^ e]. *)
Definition round_decimal (neg : bool) (m e : Z) : float :=
  if m =? 0 then S754_zero neg
  else if 0 <=? e then binary_round prec32 emax32 neg (Z.to_pos (m * 10 ^ e)) 0
  else
    let '(q, e', l) := SFdiv_core_binary prec32 emax32 m 0 (10 ^ (- e)) 0 in
    binary_round_aux prec32 emax32 neg q e' l.

Definition round_binary (neg : bool) (m e : Z) : float :=
  if m =? 0 then S754_zero neg else binary_round prec32 emax32 neg (Z.to_pos m) e.

Definition float_of_numeral (n : numeral) : float :=
  match n with
  | NDec neg m e => round_decimal neg m e
  | NHex neg m e => round_binary neg m e
  | NInf neg => S754_infinity neg
  | NNaN => S754_nan
  end.

(** [strtof(nptr, &end)]: the value and the string at [end]; with no
    subject sequence, 0 and [nptr]. *)
Definition strtof (nptr : string) : float * string :=
  match lex_float nptr with
  | Some (n, rest) => (float_of_numeral n, rest)
  | None => (S754_zero false, nptr)
  end.

(** ** parse_duration *)

Definition DURATION_MAX : Z := 65535.

(** [CLAMP(val, min, max)], that is [MAX(min, MIN(max, val))], on [int]s
    and on [float]s. *)
Definition CLAMP (val lo hi : Z) : Z :=
  let m := if hi <? val then hi else val in
  if lo >? m then lo else m.

Definition FCLAMP (val lo hi : float) : float :=
  let m := if flt hi val then hi else val in
  if flt m lo then lo else m.

(** [parse_duration] in hundredths of a second; [None] where the
    [float]-to-[int] conversion is undefined. *)
Definition parse_duration (duration : string) : option Z :=
  let '(value, end_) := strtof duration in
  if negb (streq duration "") && streq end_ "" then
    match int_of_float value with
    | Some v => Some (CLAMP v (-1) DURATION_MAX)
    | None => None
    end
  else if streq end_ "s" then
    int_of_float (FCLAMP (fmul value (float_of_int 100))
                         (float_of_int (-1)) (float_of_int DURATION_MAX))
  else if streq end_ "ms" then
    int_of_float (FCLAMP (fdiv value (float_of_int 10))
                         (float_of_int (-1)) (float_of_int DURATION_MAX))
  else Some (-1).

(** ** atoi (glibc: [(int) strtol(nptr, NULL, 10)]) *)

Definition strtol10 (nptr : string) : Z :=
  let '(neg, s) := take_sign (skip_space nptr) in
  let '(ds, _) := span isdigit s in
  let v := digits_value 10 0 ds in
  let v := if neg then - v else v in
  Z.max (- 2 ^ 63) (Z.min (2 ^ 63 - 1) v).

(** [long] to [int]: the low 32 bits, as a signed value. *)
Definition int_of_long (v : Z) : Z := (v + 2 ^ 31) mod 2 ^ 32 - 2 ^ 31.

Definition atoi (nptr : string) : Z := int_of_long (strtol10 nptr).

(** ** Texts *)

Definition nl : string := String (ascii_of_nat 10) "".
Definition tab : string := String (ascii_of_nat 9) "".

Definition USAGE : string := "Usage: blink [OPTIONS] COMMAND [FIELD...]".
Definition USAGE_OPTIONS : string :=
  "Options:" ++ nl ++ tab ++ "-h" ++ tab ++ "print this help message" ++ nl ++
  tab ++ "-c" ++ tab ++ "list defined colors".
Definition USAGE_FADE : string :=
  "Usage: blink c COLOR FADE" ++ nl ++ "Example: blink c red 50".
Definition USAGE_SET : string :=
  "Usage: blink n COLOR" ++ nl ++ "Example: blink n 454545".
Definition USAGE_PLAY : string :=
  "Usage: blink p 0|1 POSITION" ++ nl ++ "Example: blink p 0 0 # Pause" ++ nl ++
  "         blink p 1 4 # Play from 5th position".
Definition USAGE_PATT : string :=
  "Usage: blink P COLOR FADE POSITION" ++ nl ++
  "Example: blink P green .5s 2 # 3rd pattern green with 500ms fade time".
Definition USAGE_SDOWN : string :=
  "Usage: blink D 0|1 DURATION" ++ nl ++ "Example: blink D 0 0 # stop server tickle mode" ++ nl ++
  "         blink D 1 2000ms # start server tickle mode with 2s time".

Definition string_of_Z (z : Z) : string := NilEmpty.string_of_int (Z.to_int z).

Definition bytes_of_string (s : string) : list Z := map code (list_ascii_of_string s).

(** ** The command table ([commands[]]) *)

Record command := { cmd : ascii; argc : nat; usage : string; desc : string }.

Definition commands : list command :=
  [ {| cmd := "c"; argc := 2; usage := USAGE_FADE;  desc := "Fade to RGB color" |};
    {| cmd := "D"; argc := 2; usage := USAGE_SDOWN; desc := "Serverdown tickle/off" |};
    {| cmd := "n"; argc := 1; usage := USAGE_SET;   desc := "Set RGB color now" |};
    {| cmd := "p"; argc := 2; usage := USAGE_PLAY;  desc := "Play/Pause" |};
    {| cmd := "P"; argc := 3; usage := USAGE_PATT;  desc := "Set pattern entry" |} ].

(** The syntax check loop of [main]: the entry of [c], if any. *)
Fixpoint find_command (l : list command) (c : ascii) : option command :=
  match l with
  | e :: l' => if Ascii.eqb c (cmd e) then Some e else find_command l' c
  | [] => None
  end.

(** ** getopt(argc, argv, "hc") (GNU, permuting)

    Options are found anywhere before a "--"; an element "-x..." is an
    option cluster, a lone "-" an operand.  The loop of [main] returns
    at the first option character, so only that one matters; otherwise
    the operands come out in order. *)
Inductive getopt_result :=
| Option (c : ascii)
| Operands (l : list string).

Fixpoint getopt (args : list string) : getopt_result :=
  match args with
  | [] => Operands []
  | a :: rest =>
      if streq a "--" then Operands rest
      else match a with
           | String "-" (String c _) => Option c
           | _ => match getopt rest with
                  | Operands l => Operands (a :: l)
                  | o => o
                  end
           end
  end.

(** ** The report buffer

    [char buf[MSG_SIZE]], with the log of the stores into it, in order. *)

Definition MSG_SIZE : nat := 9.

Record report := { buf : list Z; stores : list (nat * Z) }.

Definition report_init : report := {| buf := [1; 0; 0; 0; 0; 0; 0; 0; 0]; stores := [] |}.

Fixpoint set_nth (l : list Z) (i : nat) (v : Z) : list Z :=
  match l, i with
  | _ :: l', O => v :: l'
  | x :: l', S i' => x :: set_nth l' i' v
  | [], _ => []
  end.

(** [buf[i] = v]: the [int] narrowed to a [char], kept as its byte. *)
Definition store (i : nat) (v : Z) (r : report) : report :=
  let b := v mod 256 in
  {| buf := set_nth (buf r) i b; stores := stores r ++ [(i, b)] |}.

(** ** main *)

(** What a run leaves: standard output (bytes), standard error (one
    string per call) and the exit status; or undefined behaviour. *)
Record io := { out : list Z; err : list string }.

Inductive outcome :=
| Exit (status : Z) (w : io)
| Undefined.

(** Result of the [switch] of [main]: the filled report, an error
    message for [error()], or undefined behaviour. *)
Inductive encoded :=
| Report (r : report)
| Error (msg : string)
| UB.

(** case 'n' *)
Definition set_color (args : list string) (r : report) : encoded :=
  let rgb := parse_color (nth 0 args "") in
  Report (store 4 (B rgb) (store 3 (G rgb) (store 2 (R rgb) r))).

(** case 'c', falling through to case 'n' *)
Definition fade_color (args : list string) (r : report) : encoded :=
  match parse_duration (nth 1 args "") with
  | None => UB
  | Some duration =>
      if duration <? 0 then Error "invalid duration"
      else set_color args (store 6 (Z.land duration 255)
                            (store 5 (Z.shiftr duration 8) r))
  end.

(** case 'P', falling through to case 'c' *)
Definition set_pattern (args : list string) (r : report) : encoded :=
  let position := atoi (nth 2 args "") in
  if (position <? 0) || (11 <? position) then
    Error ("invalid position " ++ string_of_Z position)
  else fade_color args (store 7 position r).

(** case 'p' *)
Definition play_pause (args : list string) (r : report) : encoded :=
  let play := atoi (nth 0 args "") in
  let position := atoi (nth 1 args "") in
  Report (store 3 (CLAMP position 0 11)
           (store 2 (if play =? 0 then 0 else 1) r)).

(** case 'D' *)
Definition server_down (args : list string) (r : report) : encoded :=
  let play := atoi (nth 0 args "") in
  match parse_duration (nth 1 args "") with
  | None => UB
  | Some duration =>
      if duration <? 0 then Error "invalid duration"
      else Report (store 4 (Z.land duration 255)
                    (store 3 (Z.shiftr duration 8)
                      (store 2 (if play =? 0 then 0 else 1) r)))
  end.

Definition encode (c : ascii) (args : list string) (r : report) : encoded :=
  if Ascii.eqb c "P" then set_pattern args r
  else if Ascii.eqb c "c" then fade_color args r
  else if Ascii.eqb c "n" then set_color args r
  else if Ascii.eqb c "p" then play_pause args r
  else if Ascii.eqb c "D" then server_down args r
  else Error ("unknown command '" ++ String c "'. Try 'blink -h' for help.").

Definition fail (msg : string) : outcome :=
  Exit 1 {| out := []; err := [msg ++ nl] |}.

(** The end of [main] once the [switch] is done: [write()] of the
    report, or the [error()] and [return 1] of a failed case.
    [write_ok] says whether [write(STDOUT_FILENO, buf, MSG_SIZE)]
    transfers the 9 bytes. *)
Definition emit (write_ok : bool) (x : encoded) : outcome :=
  match x with
  | Report r' =>
      if write_ok then Exit 0 {| out := buf r'; err := [] |}
      else Exit 1 {| out := []; err := [] |}
  | Error msg => fail msg
  | UB => Undefined
  end.

(** [main] after the option loop, given the operands [argv[optind..]]. *)
Definition run (write_ok : bool) (operands : list string) : outcome :=
  match operands with
  | String c EmptyString :: args =>
      let r := store 1 (code c) report_init in
      match find_command commands c with
      | Some e =>
          if negb (Nat.eqb (List.length args) (argc e)) then fail (desc e ++ nl ++ usage e)
          else emit write_ok (encode c args r)
      | None => emit write_ok (encode c args r)
      end
  | _ => fail "Put colors! Try 'blink -h' for more information."
  end.

Definition help_text : string :=
  USAGE ++ nl ++ USAGE_OPTIONS ++ nl ++ "Commands:" ++ nl ++
  concat "" (map (fun e => tab ++ String (cmd e) "" ++ tab ++ desc e ++ nl) commands).

Definition colors_text : string := concat "" (map (fun e => fst e ++ nl) colors).

(** [main(argc, argv)]; [argv] includes the program name. *)
Definition main (write_ok : bool) (argv : list string) : outcome :=
  match argv with
  | [] => Undefined
  | prog :: args =>
      match getopt args with
      | Option c =>
          if Ascii.eqb c "h" then Exit 0 {| out := bytes_of_string help_text; err := [] |}
          else if Ascii.eqb c "c" then Exit 0 {| out := bytes_of_string colors_text; err := [] |}
          else Exit 1 {| out := [];
                         err := [prog ++ ": invalid option -- '" ++ String c "'" ++ nl;
                                 USAGE_OPTIONS ++ nl] |}
      | Operands ops => run write_ok ops
      end
  end.

(** ** Checking a property over a range of integers *)

(** [p] holds at [k], [k + 1], ..., [k + fuel - 1]. *)
Fixpoint check_from (p : Z -> bool) (fuel : nat) (k : Z) : bool :=
  match fuel with
  | O => true
  | S f => p k && check_from p f (k + 1)
  end.

(** [parse_duration] on the decimal numeral of [n] followed by [unit]
    gives [expected n]. *)
Definition duration_is (unit : string) (expected : Z -> Z) (n : Z) : bool :=
  match parse_duration (string_of_Z n ++ unit) with
  | Some d => d =? expected n
  | None => false
  end.

(** The digit of [%X] for [0 <= k < 16]. *)
Definition hex_digit (k : Z) : ascii :=
  match String.get (Z.to_nat k) "0123456789ABCDEF" with Some c => c | None => "0"%char end.

(** [printf("%.6X", v)]: six upper-case hexadecimal digits, as in the
    [debug] line of [parse_color], for [0 <= v <= 0xFFFFFF]. *)
Definition format_X6 (v : Z) : string :=
  String (hex_digit (v / 16 ^ 5 mod 16)) (String (hex_digit (v / 16 ^ 4 mod 16))
  (String (hex_digit (v / 16 ^ 3 mod 16)) (String (hex_digit (v / 16 ^ 2 mod 16))
  (String (hex_digit (v / 16 mod 16)) (String (hex_digit (v mod 16)) ""))))).

(** * Properties *)

(** ** C1: an invalid colour is not rejected *)

(** C1 (code_bug). [parse_color] signals an invalid token with [-1],
    but [main] never tests it: [R], [G] and [B] of [-1] are 0xFF each,
    so [blink n xyz] writes a white report and exits with status 0,
    where the claim expects an error and status 1.  [blink c xyz 50]
    and [blink P xyz 50 0] do the same with their duration and
    position. *)
Theorem invalid_color_written_as_white :
  parse_color "xyz" = -1 /\
  main true ["blink"; "n"; "xyz"] =
    Exit 0 {| out := [1; 110; 255; 255; 255; 0; 0; 0; 0]; err := [] |} /\
  main true ["blink"; "c"; "xyz"; "50"] =
    Exit 0 {| out := [1; 99; 255; 255; 255; 0; 50; 0; 0]; err := [] |} /\
  main true ["blink"; "P"; "xyz"; "50"; "0"] =
    Exit 0 {| out := [1; 80; 255; 255; 255; 0; 50; 0; 0]; err := [] |}.
Proof. vm_compute. repeat split. Qed.

(** ** C2: parse_duration("100000ms") *)

(** C2 (counterexample). [parse_duration "100000ms"] is not 65535. *)
Lemma parse_duration_100000ms_not_65535 :
  parse_duration "100000ms" <> Some 65535.
Proof. vm_compute. discriminate. Qed.

(** C2 (amended). 100000 ms are 10000 hundredths of a second, inside
    [-1, 65535]: [parse_duration "100000ms"] is 10000, no clamping. *)
Theorem parse_duration_100000ms :
  parse_duration "100000ms" = Some 10000.
Proof. vm_compute. reflexivity. Qed.

(** ** C3: parse_duration on its three forms *)

(** C3 (code_bug). A token with no numeric prefix is not always
    refused: [strtof] leaves [end] at the token, so "s" and "ms" take
    the suffix branches and give 0.  The single-precision product also
    loses a hundredth: 2.1 s gives 209, not 210; and "1e10" converts an
    out-of-range [float] to [int], which is undefined. *)
Theorem parse_duration_slips :
  parse_duration "s" = Some 0 /\
  parse_duration "ms" = Some 0 /\
  parse_duration "2.1s" = Some 209 /\
  parse_duration "1e10" = None.
Proof. vm_compute. repeat split. Qed.

(** ** C5: blink P green 2s 2 *)

(** C5. [blink P green 2s 2] writes position 2 in byte 7, 200 = 0x00C8
    in bytes 5-6 and (0, 255, 0) in bytes 2-4; the command byte is
    stored first, then the position, the duration and the channels.
    Every successful 'P' case stores into the same report in that
    order. *)
Theorem pattern_green_2s_2 :
  main true ["blink"; "P"; "green"; "2s"; "2"] =
    Exit 0 {| out := [1; 80; 0; 255; 0; 0; 200; 2; 0]; err := [] |} /\
  encode "P" ["green"; "2s"; "2"] (store 1 80 report_init) =
    Report {| buf := [1; 80; 0; 255; 0; 0; 200; 2; 0];
              stores := [(1%nat, 80); (7%nat, 2); (5%nat, 0); (6%nat, 200);
                         (2%nat, 0); (3%nat, 255); (4%nat, 0)] |} /\
  (forall args r r', encode "P" args r = Report r' ->
     exists p d1 d2 x y z,
       stores r' = app (stores r) [(7%nat, p); (5%nat, d1); (6%nat, d2);
                                (2%nat, x); (3%nat, y); (4%nat, z)]).
Proof.
  split; [vm_compute; reflexivity|].
  split; [vm_compute; reflexivity|].
  intros args r r' H. cbn [encode Ascii.eqb Bool.eqb] in H.
  unfold set_pattern, fade_color, set_color in H.
  destruct (_ || _); [discriminate|].
  destruct (parse_duration _) as [d|]; [|discriminate].
  destruct (d <? 0); [discriminate|].
  injection H as <-. cbn [store stores].
  rewrite <- !app_assoc. do 6 eexists. reflexivity.
Qed.

(** ** Hexadecimal tokens *)

Ltac ascii_cases c :=
  destruct c as [[] [] [] [] [] [] [] []]; vm_compute; intros;
  first [reflexivity | discriminate | split; reflexivity].

Lemma xdigit_not_space (c : ascii) : isxdigit c = true -> isspace c = false.
Proof. ascii_cases c. Qed.

Lemma xdigit_tolower_not_x (c : ascii) : isxdigit c = true -> Ascii.eqb (tolower c) "x" = false.
Proof. ascii_cases c. Qed.

Lemma xdigit_not_sign (c : ascii) :
  isxdigit c = true -> Ascii.eqb c "-" = false /\ Ascii.eqb c "+" = false.
Proof. ascii_cases c. Qed.

Lemma hexval_range (c : ascii) (v : Z) : hexval c = Some v -> 0 <= v < 16.
Proof.
  unfold hexval.
  destruct ((48 <=? code c) && (code c <=? 57)) eqn:E1;
  [|destruct ((97 <=? code c) && (code c <=? 102)) eqn:E2;
    [|destruct ((65 <=? code c) && (code c <=? 70)) eqn:E3; [|discriminate]]];
  intros H; injection H as <-;
  repeat match goal with
         | H : (_ && _)%bool = true |- _ => apply andb_prop in H as [? ?]
         | H : (_ <=? _) = true |- _ => apply Z.leb_le in H
         end; lia.
Qed.

Lemma skip_space_blanks (ws t : string) :
  all isspace ws = true -> skip_space (ws ++ t) = skip_space t.
Proof.
  induction ws as [|c ws IH]; [reflexivity|].
  simpl. intros H. apply andb_prop in H as [Hc Hw]. rewrite Hc. auto.
Qed.

Lemma span_all (ok : ascii -> bool) (s : string) : all ok s = true -> span ok s = (s, "").
Proof.
  induction s as [|c s IH]; [reflexivity|].
  simpl. intros H. apply andb_prop in H as [Hc Hs]. rewrite Hc, (IH Hs). reflexivity.
Qed.

Lemma digits_value_acc (b acc : Z) (s : string) :
  digits_value b acc s =
  acc * b ^ Z.of_nat (String.length s) + digits_value b 0 s.
Proof.
  revert acc. induction s as [|c s IH]; intros acc; cbn [digits_value String.length].
  - simpl. lia.
  - set (h := match hexval c with Some v => v | None => 0 end).
    rewrite (IH (acc * b + h)), (IH (0 * b + h)).
    rewrite Nat2Z.inj_succ, Z.pow_succ_r by lia. ring.
Qed.

Lemma digits_value_hex_range (s : string) :
  all isxdigit s = true ->
  0 <= digits_value 16 0 s < 16 ^ Z.of_nat (String.length s).
Proof.
  induction s as [|c s IH]; [simpl; lia|].
  cbn [all digits_value String.length]. intros H. apply andb_prop in H as [Hc Hs].
  specialize (IH Hs).
  unfold isxdigit in Hc. destruct (hexval c) as [v|] eqn:Hv; [|discriminate].
  apply hexval_range in Hv.
  rewrite digits_value_acc, Nat2Z.inj_succ, Z.pow_succ_r by lia.
  nia.
Qed.

(** [strtoul] on blanks, a sign, an optional "0x"/"0X" and hex digits
    consumes the whole token. *)
Lemma strtoul16_token (ws sg pre h : string) :
  all isspace ws = true -> In sg [""; "+"; "-"] -> In pre [""; "0x"; "0X"] ->
  all isxdigit h = true -> h <> "" ->
  strtoul16 (ws ++ sg ++ pre ++ h) =
  (let v := digits_value 16 0 h in
   if ULONG_MAX <? v then ULONG_MAX
   else (if String.eqb sg "-" then - v else v) mod 2 ^ 64, "").
Proof.
  intros Hws Hsg Hpre Hh Hne.
  destruct h as [|c h']; [congruence|].
  pose proof Hh as Hh'. simpl in Hh'. apply andb_prop in Hh' as [Hc _].
  destruct (xdigit_not_sign c Hc) as [Hm Hp].
  assert (Hhp : hex_prefix (String c h') = None).
  { destruct h' as [|x r]; [reflexivity|]. simpl in Hh.
    apply andb_prop in Hh as [_ Hh]. apply andb_prop in Hh as [Hx _].
    unfold hex_prefix. rewrite (xdigit_tolower_not_x x Hx), andb_false_r. reflexivity. }
  assert (Hsk : skip_space (sg ++ pre ++ String c h') = sg ++ pre ++ String c h').
  { destruct Hsg as [<-|[<-|[<-|[]]]]; destruct Hpre as [<-|[<-|[<-|[]]]];
      simpl; rewrite ?(xdigit_not_space c Hc); reflexivity. }
  assert (Hts : take_sign (sg ++ pre ++ String c h') = (String.eqb sg "-", pre ++ String c h')).
  { destruct Hsg as [<-|[<-|[<-|[]]]]; destruct Hpre as [<-|[<-|[<-|[]]]];
      simpl; rewrite ?Hm, ?Hp; reflexivity. }
  assert (Hs' : match hex_prefix (pre ++ String c h') with Some r => r | None => pre ++ String c h' end
                = String c h').
  { destruct Hpre as [<-|[<-|[<-|[]]]]; cbn [String.append]; [rewrite Hhp|..]; reflexivity. }
  unfold strtoul16. rewrite (skip_space_blanks ws _ Hws), Hsk, Hts.
  cbv zeta beta iota. rewrite Hs', (span_all _ _ Hh).
  destruct (ULONG_MAX <? _); reflexivity.
Qed.

(** No registry name is made of blanks, signs, 'x', 'X' and hex digits. *)
Definition token_char (c : ascii) : bool :=
  isspace c || isxdigit c || Ascii.eqb c "+" || Ascii.eqb c "-" ||
  Ascii.eqb c "x" || Ascii.eqb c "X".

Lemma find_color_token (s : string) :
  all token_char s = true -> find_color colors s = None.
Proof.
  intros H. unfold colors. cbn [find_color]. unfold streq.
  repeat match goal with
         | |- context [String.eqb ?a s] =>
             destruct (String.eqb_spec a s) as [<-|_]; [vm_compute in H; discriminate H|]
         end.
  reflexivity.
Qed.

Lemma all_app (p : ascii -> bool) (a b : string) : all p (a ++ b) = all p a && all p b.
Proof. induction a as [|c a IH]; simpl; [reflexivity|]. rewrite IH, andb_assoc. reflexivity. Qed.

Lemma all_impl (p q : ascii -> bool) (s : string) :
  (forall c, p c = true -> q c = true) -> all p s = true -> all q s = true.
Proof.
  intros Hpq. induction s as [|c s IH]; simpl; [reflexivity|].
  intros H. apply andb_prop in H as [Hc Hs]. rewrite (Hpq c Hc), (IH Hs). reflexivity.
Qed.

Lemma token_chars (ws sg pre h : string) :
  all isspace ws = true -> In sg [""; "+"; "-"] -> In pre [""; "0x"; "0X"] ->
  all isxdigit h = true -> all token_char (ws ++ sg ++ pre ++ h) = true.
Proof.
  intros Hws Hsg Hpre Hh. rewrite !all_app.
  rewrite (all_impl isspace token_char ws); [|intros c Hc; unfold token_char; rewrite Hc; reflexivity|exact Hws].
  rewrite (all_impl isxdigit token_char h);
    [|intros c Hc; unfold token_char; rewrite Hc, orb_true_r; reflexivity|exact Hh].
  destruct Hsg as [<-|[<-|[<-|[]]]]; destruct Hpre as [<-|[<-|[<-|[]]]]; reflexivity.
Qed.

(** [parse_color] of a token outside the registry that [strtoul]
    consumes entirely. *)
Lemma parse_color_consumed (s : string) (v : Z) :
  find_color colors s = None -> strtoul16 s = (v, "") -> s <> "" ->
  parse_color s = if 16777215 <? v then -1 else v.
Proof.
  intros Hf Hs Hne. unfold parse_color. rewrite Hf, Hs.
  destruct (16777215 <? v); [reflexivity|].
  unfold streq. destruct (String.eqb_spec s ""); [congruence|]. reflexivity.
Qed.

Lemma append_nonempty (a b : string) : b <> "" -> a ++ b <> "".
Proof. destruct a; simpl; [auto|discriminate]. Qed.

(** ** C4: parse_color *)

(** C4. [parse_color] gives each registry name (exact, case-sensitive
    match) its documented 24-bit value, which the R, G, B channels
    (bits 16-23, 8-15, 0-7) rebuild; it gives every string of 1 to 6 hex
    digits its base-16 value; it fails (-1) on a hex-digit string whose
    value exceeds 0xFFFFFF, on a token outside the registry that the
    hexadecimal parse does not consume entirely (trailing characters),
    and on the empty token. *)
Theorem parse_color_contract :
  (parse_color "blue" = 0x0000FF /\ parse_color "cyan" = 0x00FFFF /\
   parse_color "green" = 0x00FF00 /\ parse_color "purple" = 0xFF00FF /\
   parse_color "red" = 0xFF0000 /\ parse_color "white" = 0xFFFFFF /\
   parse_color "yellow" = 0xFFFF00) /\
  (forall name value, In (name, value) colors ->
     parse_color name = value /\
     Z.lor (Z.shiftl (R value) 16) (Z.lor (Z.shiftl (G value) 8) (B value)) = value) /\
  (forall s, all isxdigit s = true -> (1 <= String.length s <= 6)%nat ->
     parse_color s = digits_value 16 0 s) /\
  (forall s, all isxdigit s = true -> s <> "" -> 0xFFFFFF < digits_value 16 0 s ->
     parse_color s = -1) /\
  (forall s, find_color colors s = None -> snd (strtoul16 s) <> "" ->
     parse_color s = -1) /\
  parse_color "" = -1.
Proof.
  split; [vm_compute; repeat split|].
  split.
  { intros name value Hin. unfold colors in Hin.
    repeat (destruct Hin as [Hin|Hin]; [injection Hin as <- <-; vm_compute; split; reflexivity|]).
    destruct Hin. }
  assert (Hhex : forall s, all isxdigit s = true -> s <> "" ->
            parse_color s =
            (let v := digits_value 16 0 s in
             if 16777215 <? (if ULONG_MAX <? v then ULONG_MAX else v mod 2 ^ 64) then -1
             else if ULONG_MAX <? v then ULONG_MAX else v mod 2 ^ 64)).
  { intros s Hs Hne.
    pose proof (strtoul16_token "" "" "" s eq_refl (or_introl eq_refl) (or_introl eq_refl) Hs Hne) as Ht.
    change ("" ++ "" ++ "" ++ s) with s in Ht.
    apply parse_color_consumed; [|exact Ht|exact Hne].
    apply find_color_token.
    apply (all_impl isxdigit); [|exact Hs].
    intros c Hc. unfold token_char. rewrite Hc, orb_true_r. reflexivity. }
  split.
  { intros s Hs Hlen.
    assert (Hne : s <> "") by (intros ->; simpl in Hlen; lia).
    rewrite (Hhex s Hs Hne). cbv zeta.
    pose proof (digits_value_hex_range s Hs) as [H0 H1].
    assert (16 ^ Z.of_nat (String.length s) <= 16 ^ 6) by (apply Z.pow_le_mono_r; lia).
    assert (E6 : 16 ^ 6 = 16777216) by reflexivity.
    assert (E64 : 2 ^ 64 = 18446744073709551616) by reflexivity.
    unfold ULONG_MAX.
    rewrite (proj2 (Z.ltb_ge (2 ^ 64 - 1) (digits_value 16 0 s))) by lia.
    rewrite Z.mod_small by lia.
    rewrite (proj2 (Z.ltb_ge _ _)) by lia.
    reflexivity. }
  split.
  { intros s Hs Hne Hbig.
    rewrite (Hhex s Hs Hne). cbv zeta. unfold ULONG_MAX.
    assert (E64 : 2 ^ 64 = 18446744073709551616) by reflexivity.
    destruct (2 ^ 64 - 1 <? digits_value 16 0 s) eqn:E.
    - reflexivity.
    - apply Z.ltb_ge in E. rewrite Z.mod_small by lia.
      rewrite (proj2 (Z.ltb_lt _ _)) by lia. reflexivity. }
  split.
  { intros s Hf Hend. unfold parse_color. rewrite Hf.
    destruct (strtoul16 s) as [v e]. simpl in Hend.
    destruct (16777215 <? v); [reflexivity|].
    unfold streq. destruct (String.eqb_spec e ""); [contradiction|].
    rewrite andb_false_r. reflexivity. }
  vm_compute. reflexivity.
Qed.

(** ** C10: parse_color follows strtoul *)

(** C10. Besides plain hex digits, [parse_color] accepts what
    [strtoul(_, _, 16)] reads in full: leading blanks, a '+' or '-'
    sign and a "0x"/"0X" prefix before the digits, whenever the value
    [strtoul] returns (negated modulo 2^64 after a '-') is at most
    0xFFFFFF; [parse_color "0xFF"] is 0xFF. *)
Theorem parse_color_strtoul_forms :
  (forall ws sg pre h,
     all isspace ws = true -> In sg [""; "+"; "-"] -> In pre [""; "0x"; "0X"] ->
     all isxdigit h = true -> h <> "" ->
     let v := digits_value 16 0 h in
     let value := if ULONG_MAX <? v then ULONG_MAX
                  else (if String.eqb sg "-" then - v else v) mod 2 ^ 64 in
     value <= 0xFFFFFF -> parse_color (ws ++ sg ++ pre ++ h) = value) /\
  parse_color "0xFF" = 0xFF /\ parse_color "0XfF" = 0xFF /\
  parse_color " +ff" = 0xFF /\ parse_color "-0" = 0.
Proof.
  split; [|vm_compute; repeat split].
  intros ws sg pre h Hws Hsg Hpre Hh Hne v value Hle.
  rewrite (parse_color_consumed _ value).
  - destruct (16777215 <? value) eqn:E; [apply Z.ltb_lt in E; lia|reflexivity].
  - apply find_color_token, token_chars; assumption.
  - apply strtoul16_token; assumption.
  - apply append_nonempty, append_nonempty, append_nonempty, Hne.
Qed.

(** ** The dispatcher *)

Lemma code_range (c : ascii) : 0 <= code c < 256.
Proof. unfold code. pose proof (N_ascii_bounded c). lia. Qed.

(** Every case of the [switch] stores into bytes 2 to 7 only. *)
Lemma encode_frame (c : ascii) (args : list string) (b : Z) (r' : report) :
  encode c args (store 1 b report_init) = Report r' ->
  exists b2 b3 b4 b5 b6 b7, buf r' = [1; b mod 256; b2; b3; b4; b5; b6; b7; 0].
Proof.
  unfold encode, set_pattern, fade_color, set_color, play_pause, server_down.
  intros H.
  repeat match type of H with
         | context [if ?x then _ else _] => destruct x
         | context [match ?x with Some _ => _ | None => _ end] => destruct x
         end;
  try discriminate H; injection H as <-; cbn; do 6 eexists; reflexivity.
Qed.

(** ** C6: the argument count is checked first *)

(** C6. For a command of the table given a number of operands other
    than its arity, [main] exits with status 1, writes nothing to
    standard output and prints the command's description and usage;
    the operands are not parsed.  [blink c red] is such a run. *)
Theorem arity_checked_before_parsing :
  (forall write_ok prog args0 c args e,
     getopt args0 = Operands (String c "" :: args) ->
     find_command commands c = Some e ->
     List.length args <> argc e ->
     main write_ok (prog :: args0) =
       Exit 1 {| out := []; err := [(desc e ++ nl ++ usage e) ++ nl] |}) /\
  main true ["blink"; "c"; "red"] =
    Exit 1 {| out := []; err := [("Fade to RGB color" ++ nl ++ USAGE_FADE) ++ nl] |}.
Proof.
  split; [|vm_compute; reflexivity].
  intros write_ok prog args0 c args e Hg Hf Hlen.
  unfold main. rewrite Hg. unfold run. rewrite Hf.
  rewrite (proj2 (Nat.eqb_neq _ _) Hlen). reflexivity.
Qed.

Lemma all_skip_space (p : ascii -> bool) (s : string) :
  all p s = true -> all p (skip_space s) = true.
Proof.
  induction s as [|c s IH]; [reflexivity|].
  simpl. intros H. apply andb_prop in H as [Hc Hs].
  destruct (isspace c); [auto|simpl; rewrite Hc, Hs; reflexivity].
Qed.

Lemma all_take_sign (p : ascii -> bool) (s : string) :
  all p s = true -> all p (snd (take_sign s)) = true.
Proof.
  destruct s as [|c s]; [reflexivity|].
  simpl. intros H. apply andb_prop in H as [Hc Hs].
  destruct (Ascii.eqb c "-"); [exact Hs|].
  destruct (Ascii.eqb c "+"); [exact Hs|]. simpl. rewrite Hc, Hs. reflexivity.
Qed.

(** [atoi] of a string without any decimal digit is 0. *)
Lemma atoi_no_digit (s : string) :
  all (fun c => negb (isdigit c)) s = true -> atoi s = 0.
Proof.
  intros H. unfold atoi, strtol10.
  pose proof (all_take_sign _ _ (all_skip_space _ _ H)) as H1.
  destruct (take_sign (skip_space s)) as [neg t]. simpl in H1.
  destruct t as [|c t]; [destruct neg; reflexivity|].
  simpl in H1. apply andb_prop in H1 as [Hc _].
  simpl. destruct (isdigit c); [discriminate Hc|]. destruct neg; reflexivity.
Qed.

(** ** C7: play/pause *)

(** C7. [blink p A B], when the write succeeds, emits a report whose
    byte 2 is 1 if [atoi A] is nonzero and 0 otherwise and whose byte 3
    is [atoi B] clamped to [0, 11]: an out-of-range position is no
    error.  A string without digits reads as 0. *)
Theorem play_pause_report :
  (forall prog args0 a b,
     getopt args0 = Operands ["p"; a; b] ->
     main true (prog :: args0) =
       Exit 0 {| out := [1; 112; (if atoi a =? 0 then 0 else 1);
                         Z.max 0 (Z.min 11 (atoi b)); 0; 0; 0; 0; 0];
                 err := [] |}) /\
  (forall s, all (fun c => negb (isdigit c)) s = true -> atoi s = 0).
Proof.
  split; [|exact atoi_no_digit].
  intros prog args0 a b Hg.
  unfold main. rewrite Hg. cbn.
  assert (Hp : (if atoi a =? 0 then 0 else 1) mod 256 = (if atoi a =? 0 then 0 else 1))
    by (destruct (atoi a =? 0); reflexivity).
  assert (Hq : CLAMP (atoi b) 0 11 mod 256 = Z.max 0 (Z.min 11 (atoi b))).
  { unfold CLAMP.
    destruct (11 <? atoi b) eqn:E1; [apply Z.ltb_lt in E1|apply Z.ltb_ge in E1].
    { rewrite Z.min_l, Z.max_r by lia. reflexivity. }
    destruct (0 >? atoi b) eqn:E2; [apply Z.gtb_lt in E2; rewrite Z.max_l by lia; reflexivity|].
    rewrite Z.gtb_ltb in E2. apply Z.ltb_ge in E2.
    rewrite Z.min_r, Z.max_r by lia. apply Z.mod_small. lia. }
  rewrite Hp, Hq. reflexivity.
Qed.

(** ** C8: value errors write nothing *)

(** C8. For the commands 'c', 'P' and 'D', a negative [parse_duration]
    of the duration operand (the second), or for 'P' a position
    ([atoi] of the third operand) outside [0, 11], ends the run with
    status 1, one message on standard error and no byte on standard
    output. *)
Theorem value_errors_write_nothing :
  forall write_ok prog args0 c args,
    getopt args0 = Operands (String c "" :: args) ->
    In c ["c"; "P"; "D"]%char ->
    (exists d, parse_duration (nth 1 args "") = Some d /\ d < 0) \/
    (c = "P"%char /\ (atoi (nth 2 args "") < 0 \/ 11 < atoi (nth 2 args ""))) ->
    exists msg, main write_ok (prog :: args0) = Exit 1 {| out := []; err := [msg] |}.
Proof.
  intros write_ok prog args0 c args Hg Hc Herr.
  unfold main. rewrite Hg. unfold run.
  destruct Hc as [<-|[<-|[<-|[]]]]; cbn [find_command commands Ascii.eqb Bool.eqb cmd argc];
  (destruct (Nat.eqb _ _); cbn [negb]; [|eexists; reflexivity]);
  unfold emit, encode; cbn [Ascii.eqb Bool.eqb];
  unfold set_pattern, fade_color, server_down.
  - destruct Herr as [[d [Hd Hneg]]|[Habs _]]; [|discriminate Habs].
    rewrite Hd, (proj2 (Z.ltb_lt _ _) Hneg). eexists; reflexivity.
  - destruct ((atoi (nth 2 args "") <? 0) || (11 <? atoi (nth 2 args ""))) eqn:Hpos;
      [eexists; reflexivity|].
    destruct Herr as [[d [Hd Hneg]]|[_ Hout]].
    + rewrite Hd, (proj2 (Z.ltb_lt _ _) Hneg). eexists; reflexivity.
    + apply orb_false_iff in Hpos as [H1 H2].
      apply Z.ltb_ge in H1. apply Z.ltb_ge in H2. lia.
  - destruct Herr as [[d [Hd Hneg]]|[Habs _]]; [|discriminate Habs].
    rewrite Hd, (proj2 (Z.ltb_lt _ _) Hneg). eexists; reflexivity.
Qed.

(** ** C9: the report frame *)

(** C9. Whenever a run with a command (not an option) exits with
    status 0, it has written exactly 9 bytes: the report id 1, the
    command character, six command bytes and a final 0. *)
Theorem report_frame :
  forall write_ok prog args0 ops w,
    getopt args0 = Operands ops ->
    main write_ok (prog :: args0) = Exit 0 w ->
    exists c rest b2 b3 b4 b5 b6 b7,
      ops = String c "" :: rest /\
      out w = [1; code c; b2; b3; b4; b5; b6; b7; 0] /\
      List.length (out w) = MSG_SIZE.
Proof.
  intros write_ok prog args0 ops w Hg Hm.
  unfold main in Hm. rewrite Hg in Hm. unfold run in Hm.
  destruct ops as [|[|c [|x s']] rest]; try discriminate Hm.
  assert (He : forall r, emit write_ok r = Exit 0 w ->
            exists r', r = Report r' /\ out w = buf r').
  { intros r H. unfold emit, fail in H.
    destruct r as [r'| |]; try discriminate H.
    destruct write_ok; [|discriminate H]. injection H as <-. eauto. }
  assert (Hx : exists r', encode c rest (store 1 (code c) report_init) = Report r' /\ out w = buf r').
  { destruct (find_command commands c) as [e|].
    - destruct (negb _); [discriminate Hm|]. apply He, Hm.
    - apply He, Hm. }
  destruct Hx as [r' [Hr Hout]].
  destruct (encode_frame _ _ _ _ Hr) as [b2 [b3 [b4 [b5 [b6 [b7 Hb]]]]]].
  rewrite Z.mod_small in Hb by apply code_range.
  exists c, rest, b2, b3, b4, b5, b6, b7.
  rewrite Hout, Hb. repeat split.
Qed.

(** ** Witnesses: the theorems above at concrete inputs *)

Lemma parse_color_contract_witness :
  In ("green", 0x00FF00) colors /\ parse_color "green" = 0x00FF00 /\
  parse_color "454545" = 0x454545 /\ parse_color "1000000" = -1 /\
  parse_color "12g" = -1.
Proof.
  destruct parse_color_contract as [_ [Hreg [Hhex [Hbig [Htrail _]]]]].
  split; [simpl; auto|].
  split; [apply (proj1 (Hreg "green" 0x00FF00 ltac:(simpl; auto)))|].
  split; [apply (Hhex "454545"); [reflexivity|simpl; lia]|].
  split; [apply (Hbig "1000000"); [reflexivity|discriminate|vm_compute; reflexivity]|].
  apply (Htrail "12g"); [reflexivity|vm_compute; discriminate].
Defined.

Lemma parse_color_strtoul_forms_witness :
  parse_color ("  " ++ "+" ++ "0x" ++ "ff00") = 0xff00.
Proof.
  apply (proj1 parse_color_strtoul_forms "  " "+" "0x" "ff00");
    [reflexivity|simpl; auto|simpl; auto|reflexivity|discriminate|vm_compute; discriminate].
Defined.

Lemma pattern_green_2s_2_witness :
  exists p d1 d2 x y z,
    stores (match encode "P" ["green"; "1s"; "3"] report_init with
            | Report r' => r' | _ => report_init end) =
    app (stores report_init) [(7%nat, p); (5%nat, d1); (6%nat, d2);
                              (2%nat, x); (3%nat, y); (4%nat, z)].
Proof.
  apply (proj2 (proj2 pattern_green_2s_2) ["green"; "1s"; "3"] report_init).
  vm_compute. reflexivity.
Defined.

Lemma arity_checked_before_parsing_witness :
  getopt ["P"; "red"; "1s"] = Operands ["P"; "red"; "1s"] /\
  main false ["blink"; "P"; "red"; "1s"] =
    Exit 1 {| out := []; err := [("Set pattern entry" ++ nl ++ USAGE_PATT) ++ nl] |}.
Proof.
  split; [reflexivity|].
  apply (proj1 arity_checked_before_parsing false "blink" ["P"; "red"; "1s"] "P"%char ["red"; "1s"]
           {| cmd := "P"; argc := 3; usage := USAGE_PATT; desc := "Set pattern entry" |});
    [reflexivity|reflexivity|discriminate].
Defined.

Lemma play_pause_report_witness :
  getopt ["p"; "1"; "42"] = Operands ["p"; "1"; "42"] /\
  main true ["blink"; "p"; "1"; "42"] =
    Exit 0 {| out := [1; 112; 1; 11; 0; 0; 0; 0; 0]; err := [] |} /\
  atoi "on" = 0.
Proof.
  split; [reflexivity|]. split.
  - apply (proj1 play_pause_report "blink" ["p"; "1"; "42"] "1" "42"). reflexivity.
  - apply (proj2 play_pause_report "on"). reflexivity.
Defined.

Lemma value_errors_write_nothing_witness :
  getopt ["P"; "green"; "2s"; "12"] = Operands ["P"; "green"; "2s"; "12"] /\
  atoi "12" = 12 /\
  exists msg, main true ["blink"; "P"; "green"; "2s"; "12"] = Exit 1 {| out := []; err := [msg] |}.
Proof.
  split; [reflexivity|]. split; [reflexivity|].
  apply (value_errors_write_nothing true "blink" ["P"; "green"; "2s"; "12"] "P"%char ["green"; "2s"; "12"]);
    [reflexivity|simpl; auto|].
  right. split; [reflexivity|]. right. vm_compute. reflexivity.
Defined.

Lemma report_frame_witness :
  getopt ["n"; "red"] = Operands ["n"; "red"] /\
  main true ["blink"; "n"; "red"] = Exit 0 {| out := [1; 110; 255; 0; 0; 0; 0; 0; 0]; err := [] |} /\
  exists c rest b2 b3 b4 b5 b6 b7,
    ["n"; "red"] = String c "" :: rest /\
    [1; 110; 255; 0; 0; 0; 0; 0; 0] = [1; code c; b2; b3; b4; b5; b6; b7; 0] /\
    List.length [1; 110; 255; 0; 0; 0; 0; 0; 0] = MSG_SIZE.
Proof.
  split; [reflexivity|]. split; [vm_compute; reflexivity|].
  apply (report_frame true "blink" ["n"; "red"] ["n"; "red"]
           {| out := [1; 110; 255; 0; 0; 0; 0; 0; 0]; err := [] |});
    [reflexivity|vm_compute; reflexivity].
Defined.

(** * Further properties of the code *)

Lemma check_from_sound (p : Z -> bool) (fuel : nat) (k : Z) :
  check_from p fuel k = true -> forall j, k <= j < k + Z.of_nat fuel -> p j = true.
Proof.
  revert k. induction fuel as [|f IH]; intros k H j Hj; [lia|].
  simpl in H. apply andb_prop in H as [Hk Hf].
  destruct (Z.eq_dec j k) as [->|Hne]; [exact Hk|].
  apply (IH (k + 1) Hf). lia.
Qed.

Lemma string_append_empty (s : string) : s ++ "" = s.
Proof. induction s as [|c s IH]; simpl; [reflexivity|rewrite IH; reflexivity]. Qed.

(** ** Durations written as whole numbers *)

(** X1. A duration given as a whole number of hundredths of a second,
    from -1000 to 69999, is read exactly and clamped to [-1, 65535]. *)
Theorem duration_integer_exact :
  forall n, -1000 <= n <= 69999 ->
  parse_duration (string_of_Z n) = Some (Z.max (-1) (Z.min n 65535)).
Proof.
  intros n Hn.
  assert (Hc : check_from (duration_is "" (fun k => Z.max (-1) (Z.min k 65535)))
                 (Z.to_nat 71000) (-1000) = true) by (vm_compute; reflexivity).
  pose proof (check_from_sound _ _ _ Hc n ltac:(rewrite Z2Nat.id by lia; lia)) as H.
  unfold duration_is in H. rewrite string_append_empty in H.
  destruct (parse_duration _) as [d|]; [apply Z.eqb_eq in H; subst; reflexivity|discriminate].
Qed.

(** X2. A whole number of seconds from -100 to 999 with the suffix "s"
    gives 100 times that number, clamped to [-1, 65535]. *)
Theorem duration_seconds_exact :
  forall n, -100 <= n <= 999 ->
  parse_duration (string_of_Z n ++ "s") = Some (Z.max (-1) (Z.min (100 * n) 65535)).
Proof.
  intros n Hn.
  assert (Hc : check_from (duration_is "s" (fun k => Z.max (-1) (Z.min (100 * k) 65535)))
                 (Z.to_nat 1100) (-100) = true) by (vm_compute; reflexivity).
  pose proof (check_from_sound _ _ _ Hc n ltac:(rewrite Z2Nat.id by lia; lia)) as H.
  unfold duration_is in H.
  destruct (parse_duration _) as [d|]; [apply Z.eqb_eq in H; subst; reflexivity|discriminate].
Qed.

(** X3. A whole number of milliseconds from -1000 to 29999 with the
    suffix "ms" gives that number divided by 10, truncated toward zero,
    and clamped to [-1, 65535]. *)
Theorem duration_milliseconds_exact :
  forall n, -1000 <= n <= 29999 ->
  parse_duration (string_of_Z n ++ "ms") = Some (Z.max (-1) (Z.min (Z.quot n 10) 65535)).
Proof.
  intros n Hn.
  assert (Hc : check_from (duration_is "ms" (fun k => Z.max (-1) (Z.min (Z.quot k 10) 65535)))
                 (Z.to_nat 31000) (-1000) = true) by (vm_compute; reflexivity).
  pose proof (check_from_sound _ _ _ Hc n ltac:(rewrite Z2Nat.id by lia; lia)) as H.
  unfold duration_is in H.
  destruct (parse_duration _) as [d|]; [apply Z.eqb_eq in H; subst; reflexivity|discriminate].
Qed.

(** ** Colours *)

Lemma strtoul16_nonneg (s : string) : 0 <= fst (strtoul16 s).
Proof.
  unfold strtoul16.
  destruct (take_sign (skip_space s)) as [neg t].
  destruct (span isxdigit _) as [ds rest].
  destruct ds as [|c ds].
  - destruct (hex_prefix t), t; simpl; lia.
  - destruct (ULONG_MAX <? _); simpl; [unfold ULONG_MAX; lia|].
    apply Z.mod_pos_bound. lia.
Qed.

(** X4. [parse_color] returns either the error value -1 or a 24-bit
    colour in [0, 0xFFFFFF]. *)
Theorem parse_color_range :
  forall s, parse_color s = -1 \/ 0 <= parse_color s <= 0xFFFFFF.
Proof.
  intros s. unfold parse_color.
  destruct (find_color colors s) as [v|] eqn:Hf.
  - right. unfold colors in Hf. cbn [find_color] in Hf.
    repeat (destruct (streq _ s); [injection Hf as <-; lia|]). discriminate.
  - pose proof (strtoul16_nonneg s) as Hn.
    destruct (strtoul16 s) as [v e]. simpl in Hn.
    destruct (16777215 <? v) eqn:E; [left; reflexivity|].
    apply Z.ltb_ge in E.
    destruct (negb (streq s "") && streq e ""); [right; lia|left; reflexivity].
Qed.

(** The R, G and B bytes of a 24-bit colour. *)
Lemma rgb_bytes (v : Z) : 0 <= v <= 0xFFFFFF ->
  R v mod 256 = v / 65536 /\ G v mod 256 = (v / 256) mod 256 /\ B v mod 256 = v mod 256.
Proof.
  intros Hv. unfold R, G, B.
  rewrite !Z.shiftr_land.
  change (Z.shiftr 16711680 16) with (Z.ones 8).
  change (Z.shiftr 65280 8) with (Z.ones 8).
  change (Z.shiftr 255 0) with (Z.ones 8).
  rewrite !Z.land_ones, !Z.shiftr_div_pow2 by lia.
  change (2 ^ 16) with 65536. change (2 ^ 8) with 256. change (2 ^ 0) with 1.
  rewrite !Z.mod_mod, Z.div_1_r by lia.
  repeat split. apply Z.mod_small. split; [apply Z.div_pos; lia|].
  apply Z.div_lt_upper_bound; lia.
Qed.

(** The two bytes of a duration, high byte first. *)
Lemma duration_bytes (d : Z) : 0 <= d <= 65535 ->
  Z.shiftr d 8 mod 256 = d / 256 /\ Z.land d 255 mod 256 = d mod 256.
Proof.
  intros Hd.
  rewrite Z.shiftr_div_pow2 by lia. change (2 ^ 8) with 256.
  change 255 with (Z.ones 8). rewrite Z.land_ones by lia.
  change (2 ^ 8) with 256. rewrite Z.mod_mod by lia.
  split; [|reflexivity]. apply Z.mod_small. split; [apply Z.div_pos; lia|].
  apply Z.div_lt_upper_bound; lia.
Qed.


(** ** Fade, serverdown and pattern reports *)

(** X6. [blink c COLOR FADE] with a valid colour [v] and a duration [d] in
    [0, 65535] writes the report 1, 'c', the R, G, B bytes of [v], [d]
    high byte first, and two zeros, and exits with status 0. *)
Theorem fade_report :
  forall prog args0 col dur d,
    getopt args0 = Operands ["c"; col; dur] ->
    parse_color col <> -1 ->
    parse_duration dur = Some d -> 0 <= d <= 65535 ->
    let v := parse_color col in
    main true (prog :: args0) =
      Exit 0 {| out := [1; 99; v / 65536; (v / 256) mod 256; v mod 256;
                        d / 256; d mod 256; 0; 0];
                err := [] |}.
Proof.
  intros prog args0 col dur d Hg Hc Hd Hrange v.
  unfold main. rewrite Hg.
  cbn -[parse_color parse_duration R G B Z.modulo Z.div Z.shiftr Z.land].
  unfold fade_color. cbn [nth]. rewrite Hd, (proj2 (Z.ltb_ge d 0)) by lia.
  unfold set_color. cbn [nth].
  assert (Hv : 0 <= v <= 0xFFFFFF) by (destruct (parse_color_range col); [contradiction|assumption]).
  destruct (rgb_bytes v Hv) as [H1 [H2 H3]].
  destruct (duration_bytes d Hrange) as [H4 H5].
  cbn -[parse_color R G B Z.modulo Z.div Z.shiftr Z.land].
  fold v. rewrite H1, H2, H3, H4, H5. reflexivity.
Qed.

(** X7. [blink D FLAG DURATION] with a duration [d] in [0, 65535] writes
    1, 'D', 1 if [atoi FLAG] is nonzero and 0 otherwise, [d] high byte
    first, and four zeros, and exits with status 0. *)
Theorem serverdown_report :
  forall prog args0 flag dur d,
    getopt args0 = Operands ["D"; flag; dur] ->
    parse_duration dur = Some d -> 0 <= d <= 65535 ->
    main true (prog :: args0) =
      Exit 0 {| out := [1; 68; (if atoi flag =? 0 then 0 else 1); d / 256; d mod 256;
                        0; 0; 0; 0];
                err := [] |}.
Proof.
  intros prog args0 flag dur d Hg Hd Hrange.
  destruct (duration_bytes d Hrange) as [H4 H5].
  unfold main. rewrite Hg.
  cbn -[parse_duration atoi Z.modulo Z.div Z.shiftr Z.land].
  unfold server_down. cbn [nth]. rewrite Hd, (proj2 (Z.ltb_ge d 0)) by lia.
  cbn -[atoi Z.modulo Z.div Z.shiftr Z.land].
  rewrite H4, H5. destruct (atoi flag =? 0); reflexivity.
Qed.

(** X8. The 'P' case falls through into the 'c' case: with a position
    [pos] in [0, 11], [blink P COLOR FADE POS] ends exactly as
    [blink c COLOR FADE] (same error, same exit status, same undefined
    behaviour), except that a written report carries 'P' in byte 1 and
    [pos] in byte 7. *)
Theorem pattern_falls_through_fade :
  forall write_ok prog args0 args1 col dur pos,
    getopt args0 = Operands ["P"; col; dur; pos] ->
    getopt args1 = Operands ["c"; col; dur] ->
    0 <= atoi pos <= 11 ->
    main write_ok (prog :: args0) =
      match main write_ok (prog :: args1) with
      | Exit 0 w => Exit 0 {| out := set_nth (set_nth (out w) 1 80) 7 (atoi pos);
                              err := err w |}
      | o => o
      end.
Proof.
  intros write_ok prog args0 args1 col dur pos Hg0 Hg1 Hpos.
  unfold main. rewrite Hg0, Hg1.
  cbn -[parse_color parse_duration atoi R G B Z.modulo Z.shiftr Z.land].
  unfold set_pattern. cbn [nth].
  rewrite (proj2 (Z.ltb_ge (atoi pos) 0)) by lia.
  rewrite (proj2 (Z.ltb_ge 11 (atoi pos))) by lia.
  cbn [orb]. unfold fade_color. cbn [nth].
  destruct (parse_duration dur) as [d|]; [|reflexivity].
  destruct (d <? 0); [reflexivity|].
  destruct write_ok; [|reflexivity].
  cbn -[parse_color atoi R G B Z.modulo Z.shiftr Z.land].
  rewrite (Z.mod_small (atoi pos)) by lia. reflexivity.
Qed.

(** X9. In the 'P' case the position is checked before the fade time and
    the colour: a position outside [0, 11] fails with
    "invalid position N" whatever the other operands are, even a
    duration whose conversion would be undefined. *)
Theorem pattern_position_checked_first :
  forall write_ok prog args0 col dur pos,
    getopt args0 = Operands ["P"; col; dur; pos] ->
    atoi pos < 0 \/ 11 < atoi pos ->
    main write_ok (prog :: args0) = fail ("invalid position " ++ string_of_Z (atoi pos)).
Proof.
  intros write_ok prog args0 col dur pos Hg Hpos. unfold main. rewrite Hg.
  cbn -[atoi parse_color parse_duration string_of_Z]. unfold set_pattern. cbn [nth].
  destruct (Z.ltb_spec (atoi pos) 0); destruct (Z.ltb_spec 11 (atoi pos)); try lia;
    reflexivity.
Qed.

(** X10. For 'c' and 'D', a duration that [parse_duration] reads as negative
    fails with "invalid duration", exit status 1, and nothing written. *)
Theorem negative_duration_rejected :
  forall write_ok prog args0 c a dur d,
    In c ["c"; "D"]%char ->
    getopt args0 = Operands [String c ""; a; dur] ->
    parse_duration dur = Some d -> d < 0 ->
    main write_ok (prog :: args0) = fail "invalid duration".
Proof.
  intros write_ok prog args0 c a dur d Hc Hg Hd Hneg. unfold main. rewrite Hg.
  destruct Hc as [<-|[<-|[]]]; cbn -[atoi parse_color parse_duration];
    [unfold fade_color|unfold server_down]; cbn [nth];
    rewrite Hd, (proj2 (Z.ltb_lt d 0) Hneg); reflexivity.
Qed.

(** ** Options, commands and exit paths *)

Lemma getopt_cons_plain (a : string) (rest : list string) :
  getopt [a] = Operands [a] ->
  getopt (a :: rest) = match getopt rest with Operands l => Operands (a :: l) | o => o end.
Proof.
  intros H. cbn [getopt] in *. destruct (streq a "--"); [discriminate|].
  destruct a as [|ch t]; [reflexivity|].
  destruct t as [|c t]; destruct ch as [[] [] [] [] [] [] [] []];
    cbn in H |- *; first [discriminate H | reflexivity].
Qed.

Lemma getopt_plain_app (ops rest : list string) :
  Forall (fun a => getopt [a] = Operands [a]) ops ->
  getopt (app ops rest) =
    match getopt rest with Operands l => Operands (app ops l) | o => o end.
Proof.
  induction 1 as [|a ops Ha _ IH]; simpl app.
  - destruct (getopt rest); reflexivity.
  - rewrite getopt_cons_plain by exact Ha. rewrite IH. destruct (getopt rest); reflexivity.
Qed.

Lemma getopt_option (c : ascii) (s : string) (rest : list string) :
  String "-" (String c s) <> "--" -> getopt (String "-" (String c s) :: rest) = Option c.
Proof.
  intros H. cbn [getopt]. unfold streq.
  destruct (String.eqb_spec (String "-" (String c s)) "--") as [E|_]; [contradiction|].
  reflexivity.
Qed.

(** X11. Options are found after operands (GNU permutation) and the first
    one decides: [blink OPERANDS -x ...] behaves as [blink -x] (help,
    colour list or invalid-option error), whatever follows and whether
    or not a write would succeed. *)
Theorem first_option_decides :
  forall write_ok prog ops c s rest,
    Forall (fun a => getopt [a] = Operands [a]) ops ->
    String "-" (String c s) <> "--" ->
    main write_ok (prog :: app ops (String "-" (String c s) :: rest)) =
      main true [prog; String "-" (String c s)].
Proof.
  intros write_ok prog ops c s rest Hops Hc. unfold main.
  rewrite getopt_plain_app by exact Hops. rewrite !getopt_option by exact Hc.
  reflexivity.
Qed.

(** X12. After plain operands, "--" ends the options: the rest, including
    elements that look like options, are operands of the command. *)
Theorem double_dash_ends_options :
  forall write_ok prog ops rest,
    Forall (fun a => getopt [a] = Operands [a]) ops ->
    main write_ok (prog :: app ops ("--" :: rest)) = run write_ok (app ops rest).
Proof.
  intros write_ok prog ops rest Hops. unfold main.
  rewrite getopt_plain_app by exact Hops. reflexivity.
Qed.


Lemma ascii_neq_in (c d : ascii) (l : list ascii) :
  ~ In c (d :: l) -> Ascii.eqb c d = false /\ ~ In c l.
Proof.
  intros H. split.
  - apply Ascii.eqb_neq. intros ->. apply H. left. reflexivity.
  - intros Hl. apply H. right. exact Hl.
Qed.

(** X14. A one-character command other than c, D, n, p and P fails with
    "unknown command 'X'. Try 'blink -h' for help.", whatever the
    number of operands after it. *)
Theorem unknown_command :
  forall write_ok prog args0 c args,
    getopt args0 = Operands (String c "" :: args) ->
    ~ In c ["c"; "D"; "n"; "p"; "P"]%char ->
    main write_ok (prog :: args0) =
      fail ("unknown command '" ++ String c "'. Try 'blink -h' for help.").
Proof.
  intros write_ok prog args0 c args Hg Hc.
  apply ascii_neq_in in Hc as [E1 Hc]. apply ascii_neq_in in Hc as [E2 Hc].
  apply ascii_neq_in in Hc as [E3 Hc]. apply ascii_neq_in in Hc as [E4 Hc].
  apply ascii_neq_in in Hc as [E5 _].
  unfold main. rewrite Hg. unfold run. cbn [find_command commands cmd].
  rewrite E1, E2, E3, E4, E5. unfold encode. rewrite E5, E1, E3, E4, E2.
  reflexivity.
Qed.



Lemma emit_undefined (write_ok : bool) (x : encoded) : emit write_ok x = Undefined -> x = UB.
Proof. destruct x; cbn; [destruct write_ok| |]; unfold fail; congruence. Qed.

Lemma encode_undefined (c : ascii) (args : list string) (r : report) :
  encode c args r = UB ->
  In c ["c"; "D"; "P"]%char /\ parse_duration (nth 1 args "") = None.
Proof.
  unfold encode.
  destruct (Ascii.eqb_spec c "P") as [->|_].
  { unfold set_pattern. destruct (_ || _); [discriminate|].
    unfold fade_color. destruct (parse_duration _); [destruct (_ <? 0); discriminate|].
    intros _. split; [simpl; auto|reflexivity]. }
  destruct (Ascii.eqb_spec c "c") as [->|_].
  { unfold fade_color. destruct (parse_duration _); [destruct (_ <? 0); discriminate|].
    intros _. split; [simpl; auto|reflexivity]. }
  destruct (Ascii.eqb_spec c "n") as [->|_]; [discriminate|].
  destruct (Ascii.eqb_spec c "p") as [->|_]; [discriminate|].
  destruct (Ascii.eqb_spec c "D") as [->|_]; [|discriminate].
  unfold server_down. destruct (parse_duration _); [destruct (_ <? 0); discriminate|].
  intros _. split; [simpl; auto|reflexivity].
Qed.

(** X16. The only undefined behaviour of [main] is the [float]-to-[int]
    conversion of a duration: an undefined run is a 'c', 'D' or 'P'
    command whose duration operand [parse_duration] cannot convert. *)
Theorem undefined_only_from_duration :
  forall write_ok prog args0,
    main write_ok (prog :: args0) = Undefined ->
    exists c args, getopt args0 = Operands (String c "" :: args) /\
      In c ["c"; "D"; "P"]%char /\ parse_duration (nth 1 args "") = None.
Proof.
  intros write_ok prog args0. unfold main.
  destruct (getopt args0) as [c|ops].
  { destruct (Ascii.eqb c "h"); [discriminate|]. destruct (Ascii.eqb c "c"); discriminate. }
  unfold run. destruct ops as [|a args]; [unfold fail; discriminate|].
  destruct a as [|c [|c' t]]; try (unfold fail; discriminate).
  intros H. exists c, args. split; [reflexivity|].
  destruct (find_command commands c) as [e|].
  - destruct (negb _); [unfold fail in H; discriminate|].
    exact (encode_undefined _ _ _ (emit_undefined _ _ H)).
  - exact (encode_undefined _ _ _ (emit_undefined _ _ H)).
Qed.

(** ** Colour spellings *)

Lemma hex_digit_ok (k : Z) : 0 <= k < 16 ->
  isxdigit (hex_digit k) = true /\ hexval (hex_digit k) = Some k.
Proof.
  intros H.
  assert (k = 0 \/ k = 1 \/ k = 2 \/ k = 3 \/ k = 4 \/ k = 5 \/ k = 6 \/ k = 7 \/
          k = 8 \/ k = 9 \/ k = 10 \/ k = 11 \/ k = 12 \/ k = 13 \/ k = 14 \/ k = 15)
    as Hk by lia.
  repeat (destruct Hk as [->|Hk]; [split; reflexivity|]). subst. split; reflexivity.
Qed.

(** X17. Every 24-bit colour printed with [%.6X] (six upper-case hex digits,
    as the [debug] line of [parse_color] shows it) is read back by
    [parse_color] as the same value. *)
Theorem parse_color_hex_roundtrip :
  forall v, 0 <= v <= 0xFFFFFF -> parse_color (format_X6 v) = v.
Proof.
  intros v Hv.
  assert (D : forall k, 0 <= v / 16 ^ k mod 16 < 16) by (intros; apply Z.mod_pos_bound; lia).
  assert (D0 : 0 <= v mod 16 < 16) by (apply Z.mod_pos_bound; lia).
  destruct (hex_digit_ok _ (D 5)) as [X5 V5]. destruct (hex_digit_ok _ (D 4)) as [X4 V4].
  destruct (hex_digit_ok _ (D 3)) as [X3 V3]. destruct (hex_digit_ok _ (D 2)) as [X2 V2].
  destruct (hex_digit_ok _ (D 1)) as [X1 V1]. destruct (hex_digit_ok _ D0) as [X0 V0].
  rewrite Z.pow_1_r in X1, V1.
  assert (Hx : all isxdigit (format_X6 v) = true)
    by (unfold format_X6; cbn [all]; rewrite X5, X4, X3, X2, X1, X0; reflexivity).
  assert (Hval : digits_value 16 0 (format_X6 v) = v).
  { unfold format_X6. cbn [digits_value]. rewrite V5, V4, V3, V2, V1, V0.
    assert (P2 : 16 ^ 2 = 16 * 16) by reflexivity.
    assert (P3 : 16 ^ 3 = 16 * 16 * 16) by reflexivity.
    assert (P4 : 16 ^ 4 = 16 * 16 * 16 * 16) by reflexivity.
    assert (P5 : 16 ^ 5 = 16 * 16 * 16 * 16 * 16) by reflexivity.
    rewrite P2, P3, P4, P5, <- !Z.div_div by lia.
    set (q1 := v / 16). set (q2 := q1 / 16). set (q3 := q2 / 16).
    set (q4 := q3 / 16). set (q5 := q4 / 16).
    pose proof (Z.div_mod v 16 ltac:(lia)). pose proof (Z.div_mod q1 16 ltac:(lia)).
    pose proof (Z.div_mod q2 16 ltac:(lia)). pose proof (Z.div_mod q3 16 ltac:(lia)).
    pose proof (Z.div_mod q4 16 ltac:(lia)).
    assert (Q5 : q5 mod 16 = q5).
    { apply Z.mod_small. unfold q5, q4, q3, q2, q1. rewrite !Z.div_div by lia.
      split; [apply Z.div_pos; lia|apply Z.div_lt_upper_bound; lia]. }
    rewrite Q5. lia. }
  assert (Hne : format_X6 v <> "") by discriminate.
  pose proof (strtoul16_token "" "" "" (format_X6 v) eq_refl (or_introl eq_refl)
                (or_introl eq_refl) Hx Hne) as Hs.
  pose proof (find_color_token (format_X6 v)
                (token_chars "" "" "" (format_X6 v) eq_refl (or_introl eq_refl)
                   (or_introl eq_refl) Hx)) as Hf.
  cbn [String.append] in Hs, Hf. rewrite Hval in Hs.
  rewrite (proj2 (Z.ltb_ge ULONG_MAX v)) in Hs by (unfold ULONG_MAX; lia).
  cbn [String.eqb] in Hs. rewrite Z.mod_small in Hs by lia.
  rewrite (parse_color_consumed _ _ Hf Hs Hne).
  rewrite (proj2 (Z.ltb_ge 16777215 v)) by lia. reflexivity.
Qed.

(** X18. A colour written with a leading '#' (as "#RRGGBB") is rejected
    with -1: [strtoul] converts nothing. *)
Theorem parse_color_hash_rejected :
  forall s, parse_color (String "#" s) = -1.
Proof. intros [|c s]; reflexivity. Qed.

(** X19. A minus sign before a nonzero hex value is accepted by [strtoul],
    which negates modulo 2^64: [parse_color] gives -1 unless the
    magnitude [v] is within 2^24 of 2^64, where it gives 2^64 - v
    (so "-FFFFFFFFFFFFFFFF" reads as 1). *)
Theorem parse_color_negative_hex :
  forall ws pre h,
    all isspace ws = true -> In pre [""; "0x"; "0X"] ->
    all isxdigit h = true -> h <> "" -> 0 < digits_value 16 0 h ->
    let v := digits_value 16 0 h in
    parse_color (ws ++ "-" ++ pre ++ h) =
      if (2 ^ 64 - 2 ^ 24 <? v) && (v <=? ULONG_MAX) then 2 ^ 64 - v else -1.
Proof.
  intros ws pre h Hws Hpre Hh Hne Hpos v.
  assert (Hsg : In "-" [""; "+"; "-"]) by (simpl; auto).
  pose proof (strtoul16_token ws "-" pre h Hws Hsg Hpre Hh Hne) as Hs.
  pose proof (find_color_token _ (token_chars ws "-" pre h Hws Hsg Hpre Hh)) as Hf.
  fold v in Hs. cbn [String.eqb Ascii.eqb Bool.eqb] in Hs.
  assert (Hne' : ws ++ "-" ++ pre ++ h <> "")
    by (apply append_nonempty; discriminate).
  rewrite (parse_color_consumed _ _ Hf Hs Hne').
  unfold ULONG_MAX in *. fold v in Hpos.
  assert (E64 : 2 ^ 64 = 18446744073709551616) by reflexivity.
  assert (E24 : 2 ^ 24 = 16777216) by reflexivity.
  rewrite !E64, E24 in *.
  destruct (Z.ltb_spec (18446744073709551616 - 1) v).
  - rewrite (proj2 (Z.leb_gt v _)) by lia. rewrite andb_false_r. reflexivity.
  - rewrite (proj2 (Z.leb_le v _)) by lia. rewrite andb_true_r.
    assert (M : (- v) mod 18446744073709551616 = 18446744073709551616 - v)
      by (symmetry; apply Z.mod_unique with (-1); lia).
    rewrite M.
    destruct (Z.ltb_spec (18446744073709551616 - 16777216) v);
      [rewrite (proj2 (Z.ltb_ge 16777215 _)) by lia
      |rewrite (proj2 (Z.ltb_lt 16777215 _)) by lia]; reflexivity.
Qed.

(** ** Duration suffixes *)

(** X20. A duration in which [strtof] finds no number reads as 0 when it
    is exactly "s" or "ms" (0 seconds) and as -1 otherwise. *)
Theorem duration_without_number :
  forall s, lex_float s = None ->
    parse_duration s = Some (if streq s "s" || streq s "ms" then 0 else -1).
Proof.
  intros s H. unfold parse_duration, strtof. rewrite H. unfold streq.
  destruct (String.eqb_spec s "") as [->|_]; [reflexivity|].
  destruct (String.eqb_spec s "s") as [->|_]; [vm_compute; reflexivity|].
  destruct (String.eqb_spec s "ms") as [->|_]; [vm_compute; reflexivity|].
  reflexivity.
Qed.


(** ** Witnesses of the further properties *)

Lemma duration_integer_exact_witness :
  -1000 <= 150 <= 69999 /\ parse_duration (string_of_Z 150) = Some 150.
Proof. split; [lia|]. apply (duration_integer_exact 150). lia. Defined.

Lemma duration_seconds_exact_witness :
  -100 <= 2 <= 999 /\ parse_duration (string_of_Z 2 ++ "s") = Some 200.
Proof. split; [lia|]. apply (duration_seconds_exact 2). lia. Defined.

Lemma duration_milliseconds_exact_witness :
  -1000 <= 1500 <= 29999 /\ parse_duration (string_of_Z 1500 ++ "ms") = Some 150.
Proof. split; [lia|]. apply (duration_milliseconds_exact 1500). lia. Defined.


Lemma fade_report_witness :
  getopt ["c"; "00ff80"; "2s"] = Operands ["c"; "00ff80"; "2s"] /\
  parse_duration "2s" = Some 200 /\
  main true ["blink"; "c"; "00ff80"; "2s"] =
    Exit 0 {| out := [1; 99; 0; 255; 128; 0; 200; 0; 0]; err := [] |}.
Proof.
  split; [reflexivity|]. split; [vm_compute; reflexivity|].
  exact (fade_report "blink" ["c"; "00ff80"; "2s"] "00ff80" "2s" 200 eq_refl
           ltac:(vm_compute; discriminate) ltac:(vm_compute; reflexivity) ltac:(lia)).
Defined.

Lemma serverdown_report_witness :
  getopt ["D"; "1"; "600"] = Operands ["D"; "1"; "600"] /\
  parse_duration "600" = Some 600 /\
  main true ["blink"; "D"; "1"; "600"] =
    Exit 0 {| out := [1; 68; 1; 2; 88; 0; 0; 0; 0]; err := [] |}.
Proof.
  split; [reflexivity|]. split; [vm_compute; reflexivity|].
  exact (serverdown_report "blink" ["D"; "1"; "600"] "1" "600" 600 eq_refl
           ltac:(vm_compute; reflexivity) ltac:(lia)).
Defined.

Lemma pattern_falls_through_fade_witness :
  atoi "3" = 3 /\
  main true ["blink"; "P"; "green"; "1s"; "3"] =
    match main true ["blink"; "c"; "green"; "1s"] with
    | Exit 0 w => Exit 0 {| out := set_nth (set_nth (out w) 1 80) 7 3; err := err w |}
    | o => o
    end.
Proof.
  split; [reflexivity|].
  exact (pattern_falls_through_fade true "blink" ["P"; "green"; "1s"; "3"] ["c"; "green"; "1s"]
           "green" "1s" "3" eq_refl eq_refl ltac:(vm_compute; split; discriminate)).
Defined.

Lemma first_option_decides_witness :
  main true ["blink"; "n"; "red"; "-h"; "-c"] = main true ["blink"; "-h"].
Proof.
  exact (first_option_decides true "blink" ["n"; "red"] "h"%char "" ["-c"]
           ltac:(repeat constructor) ltac:(discriminate)).
Defined.

Lemma double_dash_ends_options_witness :
  main true ["blink"; "--"; "n"; "-h"] = run true ["n"; "-h"].
Proof.
  exact (double_dash_ends_options true "blink" [] ["n"; "-h"] (Forall_nil _)).
Defined.


Lemma unknown_command_witness :
  main true ["blink"; "x"; "red"] = fail "unknown command 'x'. Try 'blink -h' for help.".
Proof.
  apply (unknown_command true "blink" ["x"; "red"] "x"%char ["red"] eq_refl).
  simpl. intros H. repeat (destruct H as [H|H]; [discriminate H|]). exact H.
Defined.


Lemma undefined_only_from_duration_witness :
  main true ["blink"; "c"; "red"; "1e10"] = Undefined /\
  exists c args, getopt ["c"; "red"; "1e10"] = Operands (String c "" :: args) /\
    In c ["c"; "D"; "P"]%char /\ parse_duration (nth 1 args "") = None.
Proof.
  split; [vm_compute; reflexivity|].
  apply (undefined_only_from_duration true "blink" ["c"; "red"; "1e10"]).
  vm_compute. reflexivity.
Defined.

Lemma pattern_position_checked_first_witness :
  atoi "12" = 12 /\
  main true ["blink"; "P"; "red"; "1e10"; "12"] = fail ("invalid position " ++ string_of_Z 12).
Proof.
  split; [reflexivity|].
  apply (pattern_position_checked_first true "blink" ["P"; "red"; "1e10"; "12"] "red" "1e10" "12");
    [reflexivity|right; vm_compute; reflexivity].
Defined.

Lemma negative_duration_rejected_witness :
  getopt ["--"; "D"; "1"; "-5"] = Operands ["D"; "1"; "-5"] /\
  parse_duration "-5" = Some (-1) /\
  main true ["blink"; "--"; "D"; "1"; "-5"] = fail "invalid duration".
Proof.
  split; [reflexivity|]. split; [vm_compute; reflexivity|].
  exact (negative_duration_rejected true "blink" ["--"; "D"; "1"; "-5"] "D"%char "1" "-5" (-1)
           ltac:(simpl; auto) eq_refl ltac:(vm_compute; reflexivity) ltac:(lia)).
Defined.

Lemma parse_color_hex_roundtrip_witness :
  format_X6 0x00FF80 = "00FF80" /\ parse_color (format_X6 0x00FF80) = 0x00FF80.
Proof.
  split; [reflexivity|]. apply parse_color_hex_roundtrip. lia.
Defined.

Lemma parse_color_negative_hex_witness :
  parse_color ("" ++ "-" ++ "" ++ "FFFFFFFFFFFFFFFF") = 1 /\
  parse_color (" " ++ "-" ++ "0x" ++ "1") = -1.
Proof.
  split.
  - exact (parse_color_negative_hex "" "" "FFFFFFFFFFFFFFFF" eq_refl ltac:(simpl; auto)
             eq_refl ltac:(discriminate) ltac:(vm_compute; reflexivity)).
  - exact (parse_color_negative_hex " " "0x" "1" eq_refl ltac:(simpl; auto)
             eq_refl ltac:(discriminate) ltac:(vm_compute; reflexivity)).
Defined.

Lemma duration_without_number_witness :
  lex_float "s" = None /\ parse_duration "s" = Some 0 /\
  lex_float "soon" = None /\ parse_duration "soon" = Some (-1).
Proof.
  split; [vm_compute; reflexivity|]. split.
  { exact (duration_without_number "s" ltac:(vm_compute; reflexivity)). }
  split; [vm_compute; reflexivity|].
  exact (duration_without_number "soon" ltac:(vm_compute; reflexivity)).
Defined.

